(** * Reflectance and bump-switch drivers of the line follower

    Shallow embedding of [src/Reflectance.c] and [src/BumpInt.c].
    Integers of the C code are [Z]; every store into a C object of
    width [n] is followed by the wrap-around into that width. *)

From Stdlib Require Import ZArith List Bool Lia.
Import ListNotations.
Open Scope Z_scope.

(** ** C integer conversions *)

(** Conversion of an [int] value into [uint8_t] (modulo 2^8). *)
Definition to_u8 (v : Z) : Z := Z.land v 255.

(** Conversion of a value into [int32_t] (two's complement wrap-around). *)
Definition to_s32 (v : Z) : Z :=
  let m := v mod 2 ^ 32 in if m <? 2 ^ 31 then m else m - 2 ^ 32.

(** C division [a / b] on [int32_t]: truncates toward zero; a zero divisor
    is undefined behaviour, modelled by [None]. *)
Definition c_div (a b : Z) : option Z :=
  if b =? 0 then None else Some (to_s32 (Z.quot a b)).

(** ** Reflectance_Position (Reflectance.c, lines 151-165) *)
Module Position.

(** [int32_t w[] = {-33400,-23800,-14300,-4800,4800,14300,23800,33400};] *)
Definition w : list Z :=
  [-33400; -23800; -14300; -4800; 4800; 14300; 23800; 33400].

(** [b = (data>>i)&1;] stored into a [uint8_t]. *)
Definition bit (data : Z) (i : nat) : Z :=
  to_u8 (Z.land (Z.shiftr data (Z.of_nat i)) 1).

(** One iteration of the [for] loop on [(weightsum, bitsum)]:
    [weightsum += b*w[i]; bitsum += b;]. *)
Definition loop_body (data : Z) (acc : Z * Z) (i : nat) : Z * Z :=
  let '(weightsum, bitsum) := acc in
  let b := bit data i in
  (to_s32 (weightsum + b * nth i w 0), to_s32 (bitsum + b)).

(** [for (i = 0; i<8; i++) { ... }] starting from [weightsum=0, bitsum=0]. *)
Definition sums (data : Z) : Z * Z :=
  fold_left (loop_body data) (seq 0 8) (0, 0).

(** [position = weightsum/bitsum; return position;] *)
Definition Reflectance_Position (data : Z) : option Z :=
  let '(weightsum, bitsum) := sums data in c_div weightsum bitsum.

End Position.

(** ** Memory-mapped I/O of the MSP432 *)

Inductive port := P4 | P5 | P7 | P9.
Inductive field := SEL0 | SEL1 | DIR | REN | OUT | DS | IES | IFG | IE.

Definition port_eqb (p q : port) : bool :=
  match p, q with
  | P4, P4 | P5, P5 | P7, P7 | P9, P9 => true
  | _, _ => false
  end.

Definition field_eqb (f g : field) : bool :=
  match f, g with
  | SEL0, SEL0 | SEL1, SEL1 | DIR, DIR | REN, REN | OUT, OUT | DS, DS
  | IES, IES | IFG, IFG | IE, IE => true
  | _, _ => false
  end.

Section Hardware.

(** The physical world outside the registers (capacitor voltages, switch
    contacts, elapsed time), left abstract. *)
Variable World : Type.

Record hw := mk_hw {
  regs : port -> field -> Z;     (** 8-bit port registers [Px->f] *)
  nvic_ip9 : Z;                  (** [NVIC->IP[9]] *)
  nvic_iser1 : Z;                (** [NVIC->ISER[1]] *)
  int_enabled : bool;            (** global interrupt enable *)
  world : World
}.

(** [P7->IN]: the digital level of the eight sensor pins, as sampled by the
    hardware; it may depend on anything in the state. *)
Variable P7_IN : hw -> Z.

(** [Clock_Delay1us(n)]: the platform's busy-wait; it lets the world evolve
    in an arbitrary way. *)
Variable Clock_Delay1us : Z -> hw -> hw.

Definition get (s : hw) (p : port) (f : field) : Z := regs s p f.

(** [Px->f = v] on an 8-bit register. *)
Definition reg_set (p : port) (f : field) (v : Z) (s : hw) : hw :=
  mk_hw (fun p' f' => if port_eqb p p' && field_eqb f f' then to_u8 v
                      else regs s p' f')
        (nvic_ip9 s) (nvic_iser1 s) (int_enabled s) (world s).

(** [Px->f |= mask] *)
Definition reg_or (p : port) (f : field) (mask : Z) (s : hw) : hw :=
  reg_set p f (Z.lor (get s p f) mask) s.

(** [Px->f &= ~mask] *)
Definition reg_and_not (p : port) (f : field) (mask : Z) (s : hw) : hw :=
  reg_set p f (Z.land (get s p f) (Z.lnot mask)) s.

(** *** Reflectance.c *)

(** [void Reflectance_Init(void)] (lines 65-84). *)
Definition Reflectance_Init (s : hw) : hw :=
  let s := reg_and_not P5 SEL0 8 s in    (* P5->SEL0 &= ~0x08; *)
  let s := reg_and_not P5 SEL1 8 s in    (* P5->SEL1 &= ~0x08; *)
  let s := reg_or P5 DIR 8 s in          (* P5->DIR |= 0x08; *)
  let s := reg_or P5 DS 8 s in           (* P5->DS |= 0x08; *)
  let s := reg_and_not P5 OUT 8 s in     (* P5->OUT &= ~0x08; *)
  let s := reg_and_not P9 SEL0 4 s in    (* P9->SEL0 &= ~0x04; *)
  let s := reg_and_not P9 SEL1 4 s in    (* P9->SEL1 &= ~0x04; *)
  let s := reg_or P9 DIR 4 s in          (* P9->DIR |= 0x04; *)
  let s := reg_or P9 DS 4 s in           (* P9->DS |= 0x04; *)
  let s := reg_and_not P9 OUT 4 s in     (* P9->OUT &= ~0x04; *)
  let s := reg_and_not P7 SEL0 255 s in  (* P7->SEL0 &= ~0xFF; *)
  let s := reg_and_not P7 SEL1 255 s in  (* P7->SEL1 &= ~0xFF; *)
  let s := reg_and_not P7 DIR 255 s in   (* P7->DIR &= ~0xFF; *)
  reg_and_not P7 REN 255 s.              (* P7->REN &= ~0xFF; *)

(** [uint8_t Reflectance_Read(uint32_t time)] (lines 97-112). *)
Definition Reflectance_Read (time : Z) (s : hw) : Z * hw :=
  let s := reg_or P5 OUT 8 s in          (* P5->OUT |= 0x08; *)
  let s := reg_or P9 OUT 4 s in          (* P9->OUT |= 0x04; *)
  let s := reg_set P7 DIR 255 s in       (* P7->DIR = 0xFF; *)
  let s := reg_set P7 OUT 255 s in       (* P7->OUT = 0xFF; *)
  let s := Clock_Delay1us 10 s in        (* Clock_Delay1us(10); *)
  let s := reg_set P7 DIR 0 s in         (* P7->DIR = 0x00; *)
  let s := Clock_Delay1us time s in      (* Clock_Delay1us(time); *)
  let result := to_u8 (P7_IN s) in       (* result = P7->IN; *)
  let s := reg_and_not P5 OUT 8 s in     (* P5->OUT &= ~0x08; *)
  let s := reg_and_not P9 OUT 4 s in     (* P9->OUT &= ~0x04; *)
  (result, s).

(** [uint8_t Reflectance_Center(uint32_t time)] (lines 130-145). *)
Definition Reflectance_Center (time : Z) (s : hw) : Z * hw :=
  let s := reg_or P5 OUT 8 s in
  let s := reg_or P9 OUT 4 s in
  let s := reg_set P7 DIR 255 s in
  let s := reg_set P7 OUT 255 s in
  let s := Clock_Delay1us 10 s in
  let s := reg_set P7 DIR 0 s in
  let s := Clock_Delay1us time s in
  let result := to_u8 (Z.shiftr (Z.land (P7_IN s) 24) 3) in
                                         (* result = (P7->IN&0x18)>>3; *)
  let s := reg_and_not P5 OUT 8 s in
  let s := reg_and_not P9 OUT 4 s in
  (result, s).

(** [void Reflectance_Start(void)] (lines 176-183). *)
Definition Reflectance_Start (s : hw) : hw :=
  let s := reg_or P5 OUT 8 s in
  let s := reg_or P9 OUT 4 s in
  let s := reg_set P7 DIR 255 s in
  let s := reg_set P7 OUT 255 s in
  let s := Clock_Delay1us 10 s in
  reg_set P7 DIR 0 s.

(** [uint8_t Reflectance_End(void)] (lines 194-202). *)
Definition Reflectance_End (s : hw) : Z * hw :=
  let result := to_u8 (P7_IN s) in
  let s := reg_and_not P5 OUT 8 s in
  let s := reg_and_not P9 OUT 4 s in
  (result, s).

(** *** BumpInt.c *)

(** [void BumpInt_Init(void)] (lines 57-71); [EnableInterrupts()] sets the
    global interrupt enable. *)
Definition BumpInt_Init (s : hw) : hw :=
  let s := reg_and_not P4 SEL0 237 s in  (* P4->SEL0 &= ~0xED; *)
  let s := reg_and_not P4 SEL1 237 s in  (* P4->SEL1 &= ~0xED; *)
  let s := reg_and_not P4 DIR 237 s in   (* P4->DIR &= ~0xED; *)
  let s := reg_or P4 REN 237 s in        (* P4->REN |= 0xED; *)
  let s := reg_or P4 OUT 237 s in        (* P4->OUT |= 0xED; *)
  let s := reg_or P4 IES 237 s in        (* P4->IES |= 0xED; *)
  let s := reg_and_not P4 IFG 237 s in   (* P4->IFG &= ~0xED; *)
  let s := reg_or P4 IE 237 s in         (* P4->IE |= 0xED; *)
  let s := mk_hw (regs s)                (* NVIC->IP[9]=(NVIC->IP[9]&0xFF0FFFFF)|0x00200000; *)
                 (Z.lor (Z.land (nvic_ip9 s) 4279238655) 2097152)
                 (nvic_iser1 s) (int_enabled s) (world s) in
  let s := mk_hw (regs s) (nvic_ip9 s) 64 (* NVIC->ISER[1] = 0x00000040; *)
                 (int_enabled s) (world s) in
  mk_hw (regs s) (nvic_ip9 s) (nvic_iser1 s) true (world s).
                                         (* EnableInterrupts(); *)

(** [uint8_t Bump_Read(void)] (lines 80-84): [return 0;]. *)
Definition Bump_Read (s : hw) : Z := 0.

End Hardware.

(** A concrete machine state: every port register holds [0x5A]. *)
Definition hw0 : hw unit := mk_hw unit (fun _ _ => 90) 7 0 false tt.


(** ** Bit-level facts *)

Lemma bit_testbit (d : Z) (i : nat) :
  Position.bit d i = Z.b2z (Z.testbit d (Z.of_nat i)).
Proof.
  unfold Position.bit, to_u8.
  apply Z.bits_inj'; intros n Hn.
  rewrite !Z.land_spec, Z.shiftr_spec by lia.
  destruct (Z.eq_dec n 0) as [->|Hn0].
  - rewrite Z.b2z_bit0, Z.add_0_l. now destruct (Z.testbit d (Z.of_nat i)).
  - rewrite (Z.bits_above_log2 1 n) by (cbn; lia).
    destruct (Z.testbit d (Z.of_nat i)); cbn;
      [rewrite (Z.bits_above_log2 1 n) by (cbn; lia)|rewrite Z.testbit_0_l];
      now rewrite ?andb_false_r.
Qed.

Lemma position_bits (d : Z) :
  Position.Reflectance_Position d =
  let b k := Z.b2z (Z.testbit d k) in
  c_div
    (to_s32 (to_s32 (to_s32 (to_s32 (to_s32 (to_s32 (to_s32 (to_s32 (0
      + b 0 * -33400) + b 1 * -23800) + b 2 * -14300) + b 3 * -4800)
      + b 4 * 4800) + b 5 * 14300) + b 6 * 23800) + b 7 * 33400))
    (to_s32 (to_s32 (to_s32 (to_s32 (to_s32 (to_s32 (to_s32 (to_s32 (0
      + b 0) + b 1) + b 2) + b 3) + b 4) + b 5) + b 6) + b 7)).
Proof.
  unfold Position.Reflectance_Position, Position.sums.
  cbn [fold_left seq Position.loop_body nth Position.w].
  rewrite !bit_testbit. reflexivity.
Qed.

Lemma byte_zero (d : Z) :
  0 <= d < 256 -> (forall i, 0 <= i < 8 -> Z.testbit d i = false) -> d = 0.
Proof.
  intros Hd Hb. apply Z.bits_inj'; intros n Hn. rewrite Z.testbit_0_l.
  destruct (Z.lt_ge_cases n 8) as [Hlt|Hge]; [apply Hb; lia|].
  destruct (Z.eq_dec d 0) as [->|Hd0]; [apply Z.testbit_0_l|].
  apply Z.bits_above_log2; [lia|].
  apply Z.le_lt_trans with 7; [|lia].
  apply Z.lt_succ_r, Z.log2_lt_pow2; cbn; lia.
Qed.

(** Case split on the eight sensor bits of a snapshot. *)
Ltac split_bits d :=
  destruct (Z.testbit d 0) eqn:?, (Z.testbit d 1) eqn:?,
           (Z.testbit d 2) eqn:?, (Z.testbit d 3) eqn:?,
           (Z.testbit d 4) eqn:?, (Z.testbit d 5) eqn:?,
           (Z.testbit d 6) eqn:?, (Z.testbit d 7) eqn:?.

(** Some sensor bit of a non-zero 8-bit snapshot is set. *)
Lemma byte_nonzero_bit (d : Z) :
  0 <= d < 256 -> d <> 0 ->
  Z.testbit d 0 = false -> Z.testbit d 1 = false -> Z.testbit d 2 = false ->
  Z.testbit d 3 = false -> Z.testbit d 4 = false -> Z.testbit d 5 = false ->
  Z.testbit d 6 = false -> Z.testbit d 7 = false -> False.
Proof.
  intros Hd Hnz H0 H1 H2 H3 H4 H5 H6 H7. apply Hnz, byte_zero; [exact Hd|].
  intros i Hi.
  assert (i = 0 \/ i = 1 \/ i = 2 \/ i = 3 \/ i = 4 \/ i = 5 \/ i = 6 \/ i = 7)
    as Hc by lia.
  destruct Hc as [->|[->|[->|[->|[->|[->|[->| ->]]]]]]]; assumption.
Qed.

(** C2: mirroring the snapshot left-to-right negates the position. *)
Theorem position_mirror (d m : Z) (Hd : 0 <= d < 256) (Hm : 0 <= m < 256)
  (Hnz : d <> 0)
  (Hmir : forall i, 0 <= i < 8 -> Z.testbit m i = Z.testbit d (7 - i)) :
  exists x, Position.Reflectance_Position d = Some x /\
            Position.Reflectance_Position m = Some (- x).
Proof.
  rewrite !position_bits; cbv beta zeta.
  rewrite (Hmir 0 ltac:(lia) : Z.testbit m 0 = Z.testbit d 7),
    (Hmir 1 ltac:(lia) : Z.testbit m 1 = Z.testbit d 6),
    (Hmir 2 ltac:(lia) : Z.testbit m 2 = Z.testbit d 5),
    (Hmir 3 ltac:(lia) : Z.testbit m 3 = Z.testbit d 4),
    (Hmir 4 ltac:(lia) : Z.testbit m 4 = Z.testbit d 3),
    (Hmir 5 ltac:(lia) : Z.testbit m 5 = Z.testbit d 2),
    (Hmir 6 ltac:(lia) : Z.testbit m 6 = Z.testbit d 1),
    (Hmir 7 ltac:(lia) : Z.testbit m 7 = Z.testbit d 0).
  split_bits d;
    try (exfalso; apply (byte_nonzero_bit d); assumption);
    vm_compute; eexists; split; reflexivity.
Qed.

Example position_bit0 : Position.Reflectance_Position 1 = Some (-33400).
Proof. reflexivity. Qed.
Example position_mixed : Position.Reflectance_Position 3 = Some (-28600).
Proof. reflexivity. Qed.

(** Replace a closed [Reflectance_Position] call by its value. *)
Ltac eval_position :=
  match goal with
  | |- context [c_div ?a ?b] =>
      let v := eval vm_compute in (c_div a b) in change (c_div a b) with v
  end.

(** C1: with no sensor bit set, the loop leaves [bitsum = 0] and the final
    [weightsum/bitsum] is a C division by zero; no guard or sentinel exists. *)
Theorem position_zero_divides_by_zero :
  Position.sums 0 = (0, 0) /\ Position.Reflectance_Position 0 = None.
Proof. split; reflexivity. Qed.

(** C3: a snapshot with only bit [i] set yields the [i]-th weight; bit 0
    alone gives -33400 and bit 7 alone gives +33400. *)
Theorem position_single_bit (i : nat) (Hi : (i < 8)%nat) :
  Position.Reflectance_Position (Z.shiftl 1 (Z.of_nat i)) =
    Some (nth i Position.w 0) /\
  Position.Reflectance_Position 1 = Some (-33400) /\
  Position.Reflectance_Position 128 = Some 33400.
Proof.
  split; [|split; reflexivity].
  do 8 (destruct i as [|i]; [reflexivity|]). lia.
Qed.

(** C4: the all-ones snapshot [0xFF] yields exactly 0. *)
Theorem position_all_set : Position.Reflectance_Position 255 = Some 0.
Proof. reflexivity. Qed.

(** C7 (counterexample): the weight table is not evenly spaced; its first
    step is 9600 and its second 9500. *)
Lemma weights_not_evenly_spaced :
  nth 1 Position.w 0 - nth 0 Position.w 0 <> nth 2 Position.w 0 - nth 1 Position.w 0.
Proof. cbn. lia. Qed.

(** C7 (amended): the table has eight entries, is antisymmetric
    ([w[7-i] = -w[i]]), runs from -33400 to +33400, and its consecutive
    steps are 9600, 9500, 9500, 9600, 9500, 9500, 9600. *)
Theorem weights_shape :
  length Position.w = 8%nat /\
  rev Position.w = map Z.opp Position.w /\
  nth 0 Position.w 0 = -33400 /\ nth 7 Position.w 0 = 33400 /\
  map (fun i => nth (S i) Position.w 0 - nth i Position.w 0) (seq 0 7) =
    [9600; 9500; 9500; 9600; 9500; 9500; 9600].
Proof. repeat split; reflexivity. Qed.

(** C9: for a snapshot with at least one bit set, the position lies in
    [-33400, 33400]. *)
Theorem position_bounded (d : Z) (Hd : 0 <= d < 256) (Hnz : d <> 0) :
  exists x, Position.Reflectance_Position d = Some x /\ -33400 <= x <= 33400.
Proof.
  rewrite position_bits; cbv beta zeta.
  split_bits d;
    try (exfalso; apply (byte_nonzero_bit d); assumption);
    eval_position; (eexists; split; [reflexivity|lia]).
Qed.

(** ** Register-level facts *)

Lemma testbit_24 (n : Z) : 0 <= n -> Z.testbit 24 n = (n =? 3) || (n =? 4).
Proof.
  intros Hn.
  assert (n = 0 \/ n = 1 \/ n = 2 \/ n = 3 \/ n = 4 \/ 5 <= n) as Hc by lia.
  destruct Hc as [->|[->|[->|[->|[->|H5]]]]]; try reflexivity.
  rewrite Z.bits_above_log2 by (cbn; lia).
  rewrite (proj2 (Z.eqb_neq n 3)), (proj2 (Z.eqb_neq n 4)) by lia.
  reflexivity.
Qed.

(** [(x & 0x18) >> 3] is the two-bit code [2*bit4 + bit3]. *)
Lemma center_bits (x : Z) :
  Z.shiftr (Z.land x 24) 3 = 2 * Z.b2z (Z.testbit x 4) + Z.b2z (Z.testbit x 3).
Proof.
  destruct (Z.testbit x 3) eqn:E3, (Z.testbit x 4) eqn:E4; cbn [Z.b2z];
    apply Z.bits_inj'; intros n Hn;
    rewrite Z.shiftr_spec, Z.land_spec, testbit_24 by lia;
    (assert (n = 0 \/ n = 1 \/ 2 <= n) as [->|[->|Hn2]] by lia;
     [change (0 + 3) with 3; rewrite E3; reflexivity
     |change (1 + 3) with 4; rewrite E4; reflexivity
     |rewrite (proj2 (Z.eqb_neq (n + 3) 3)), (proj2 (Z.eqb_neq (n + 3) 4))
        by lia;
      rewrite andb_false_r; symmetry; apply Z.bits_above_log2; cbn; lia]).
Qed.

(** Truncating the centre code to [uint8_t] commutes with sampling a
    [uint8_t] first. *)
Lemma center_u8 (x : Z) :
  to_u8 (Z.shiftr (Z.land x 24) 3) = Z.shiftr (Z.land (to_u8 x) 24) 3.
Proof.
  rewrite !center_bits. unfold to_u8 at 2 3. rewrite !Z.land_spec.
  change (Z.testbit 255 4) with true. change (Z.testbit 255 3) with true.
  rewrite !andb_true_r. unfold to_u8.
  destruct (Z.testbit x 3), (Z.testbit x 4); reflexivity.
Qed.

Section HardwareFacts.

Variable World : Type.
Variable P7_IN : hw World -> Z.
Variable Clock_Delay1us : Z -> hw World -> hw World.

(** C5: [Reflectance_Center] returns the two centre bits of the snapshot
    that the same protocol samples, moved to bits 1..0: 0 when neither bit
    3 nor bit 4 is set, 1 for bit 3 only, 2 for bit 4 only, 3 for both;
    it leaves the registers as [Reflectance_Read] does. *)
Theorem center_code (t : Z) (s : hw World) :
  let p := fst (Reflectance_Read World P7_IN Clock_Delay1us t s) in
  let r := Reflectance_Center World P7_IN Clock_Delay1us t s in
  fst r = Z.shiftr (Z.land p 24) 3 /\
  fst r = 2 * Z.b2z (Z.testbit p 4) + Z.b2z (Z.testbit p 3) /\
  snd r = snd (Reflectance_Read World P7_IN Clock_Delay1us t s).
Proof.
  cbv zeta. unfold Reflectance_Center, Reflectance_Read; cbn [fst snd].
  rewrite center_u8. split; [reflexivity|split; [apply center_bits|reflexivity]].
Qed.

(** C6: [Reflectance_Start], a wait of [t] microseconds, then
    [Reflectance_End] give the snapshot and final state of
    [Reflectance_Read t]. *)
Theorem start_end_refines_read (t : Z) (s : hw World) :
  Reflectance_End World P7_IN
    (Clock_Delay1us t (Reflectance_Start World Clock_Delay1us s)) =
  Reflectance_Read World P7_IN Clock_Delay1us t s.
Proof. reflexivity. Qed.

(** C8: [Bump_Read] returns 0 whatever the state of the pins. *)
Theorem bump_read_zero (s : hw World) : Bump_Read World s = 0.
Proof. reflexivity. Qed.

(** C10: [BumpInt_Init] leaves bits 1 and 4 of the Port 4 registers SEL0,
    SEL1, DIR, REN, OUT, IES, IFG and IE as they were. *)
Theorem bump_init_frame (s : hw World) (r : field)
  (Hr : In r [SEL0; SEL1; DIR; REN; OUT; IES; IFG; IE])
  (i : Z) (Hi : i = 1 \/ i = 4) :
  Z.testbit (regs World (BumpInt_Init World s) P4 r) i =
  Z.testbit (regs World s P4 r) i.
Proof.
  cbn in Hr.
  destruct Hr as [<-|[<-|[<-|[<-|[<-|[<-|[<-|[<-|[]]]]]]]]];
    destruct Hi as [->| ->]; cbn -[Z.land Z.lor Z.lnot Z.testbit to_u8];
    unfold get, to_u8;
    rewrite ?Z.land_spec, ?Z.lor_spec, ?Z.lnot_spec by lia;
    change (Z.testbit 237 1) with false; change (Z.testbit 237 4) with false;
    change (Z.testbit 255 1) with true; change (Z.testbit 255 4) with true;
    cbn [negb]; rewrite ?andb_true_r, ?orb_false_r; reflexivity.
Qed.

End HardwareFacts.

(** ** Witnesses: the theorems above applied at concrete inputs *)

Lemma position_mirror_witness :
  (0 <= 3 < 256) /\ (0 <= 192 < 256) /\ 3 <> 0 /\
  (forall i, 0 <= i < 8 -> Z.testbit 192 i = Z.testbit 3 (7 - i)) /\
  exists x, Position.Reflectance_Position 3 = Some x /\
            Position.Reflectance_Position 192 = Some (- x).
Proof.
  assert (Hmir : forall i, 0 <= i < 8 -> Z.testbit 192 i = Z.testbit 3 (7 - i)).
  { intros i Hi.
    assert (i = 0 \/ i = 1 \/ i = 2 \/ i = 3 \/ i = 4 \/ i = 5 \/ i = 6 \/ i = 7)
      as Hc by lia.
    destruct Hc as [->|[->|[->|[->|[->|[->|[->| ->]]]]]]]; reflexivity. }
  split; [lia|split; [lia|split; [lia|split; [exact Hmir|]]]].
  apply (position_mirror 3 192); [lia|lia|lia|exact Hmir].
Defined.

Lemma position_single_bit_witness :
  (7 < 8)%nat /\
  Position.Reflectance_Position (Z.shiftl 1 (Z.of_nat 7)) =
    Some (nth 7 Position.w 0) /\
  Position.Reflectance_Position 1 = Some (-33400) /\
  Position.Reflectance_Position 128 = Some 33400.
Proof.
  split; [lia|]. apply (position_single_bit 7). lia.
Defined.

Lemma position_bounded_witness :
  (0 <= 7 < 256) /\ 7 <> 0 /\
  exists x, Position.Reflectance_Position 7 = Some x /\ -33400 <= x <= 33400.
Proof.
  split; [lia|split; [lia|]]. apply (position_bounded 7); lia.
Defined.

Lemma bump_init_frame_witness :
  let s := mk_hw unit (fun _ _ => 18) 0 0 false tt in
  In REN [SEL0; SEL1; DIR; REN; OUT; IES; IFG; IE] /\ (4 = 1 \/ 4 = 4) /\
  Z.testbit (regs unit (BumpInt_Init unit s) P4 REN) 4 =
  Z.testbit (regs unit s P4 REN) 4.
Proof.
  cbv zeta. split; [cbn; tauto|split; [right; reflexivity|]].
  apply (bump_init_frame unit).
  - cbn; tauto.
  - right; reflexivity.
Defined.

(** ** Further properties of the drivers *)

(** Push [Z.testbit] through [land], [lor] and [lnot]. *)
Ltac bits_rewrite :=
  repeat first [rewrite Z.land_spec | rewrite Z.lor_spec
               | rewrite Z.lnot_spec by lia].

(** Decide an equation between bitwise expressions bit by bit. *)
Ltac bits_solve :=
  apply Z.bits_inj'; intros ?n ?Hn; unfold to_u8; bits_rewrite;
  repeat match goal with |- context [Z.testbit ?a ?b] =>
    destruct (Z.testbit a b) end; reflexivity.

Lemma testbit_255 (i : Z) : 0 <= i < 8 -> Z.testbit 255 i = true.
Proof.
  intros Hi.
  assert (i = 0 \/ i = 1 \/ i = 2 \/ i = 3 \/ i = 4 \/ i = 5 \/ i = 6 \/ i = 7)
    as Hc by lia.
  destruct Hc as [->|[->|[->|[->|[->|[->|[->| ->]]]]]]]; reflexivity.
Qed.

(** Close a goal on closed bit positions of register contents. *)
Ltac regs_cases :=
  unfold get, to_u8; bits_rewrite;
  repeat match goal with |- context [Z.testbit (regs ?W ?s ?p ?f) ?i] =>
    destruct (Z.testbit (regs W s p f) i) end; reflexivity.

(** Split a conjunction without trying [eq_refl] on its parts. *)
Ltac split_conj := repeat match goal with |- _ /\ _ => split end.

Lemma regs_reg_set (W : Type) p f v (x : hw W) p' f' :
  regs W (reg_set W p f v x) p' f' =
  if port_eqb p p' && field_eqb f f' then to_u8 v else regs W x p' f'.
Proof. reflexivity. Qed.

(** Compute register contents through [reg_set] and a register-preserving
    delay [Hdelay]. *)
Ltac regs_simp Hdelay :=
  unfold reg_or, reg_and_not, get;
  repeat progress (rewrite ?Hdelay, ?regs_reg_set; cbn [port_eqb field_eqb andb]).

Section DriverFacts.

Variable World : Type.
Variable P7_IN : hw World -> Z.
Variable Clock_Delay1us : Z -> hw World -> hw World.

(** [Reflectance_Init] applied twice leaves every register as one call does. *)
Theorem reflectance_init_idempotent (s : hw World) :
  (forall p f, regs World (Reflectance_Init World (Reflectance_Init World s)) p f =
               regs World (Reflectance_Init World s) p f) /\
  nvic_ip9 World (Reflectance_Init World (Reflectance_Init World s)) =
    nvic_ip9 World s /\
  nvic_iser1 World (Reflectance_Init World (Reflectance_Init World s)) =
    nvic_iser1 World s /\
  int_enabled World (Reflectance_Init World (Reflectance_Init World s)) =
    int_enabled World s.
Proof.
  split; [|split_conj; reflexivity].
  intros p f; destruct p, f; cbn -[Z.land Z.lor Z.lnot to_u8];
    unfold get; try reflexivity; bits_solve.
Qed.

(** [BumpInt_Init] applied twice leaves every register, the NVIC registers
    and the interrupt enable as one call does. *)
Theorem bump_init_idempotent (s : hw World) :
  (forall p f, regs World (BumpInt_Init World (BumpInt_Init World s)) p f =
               regs World (BumpInt_Init World s) p f) /\
  nvic_ip9 World (BumpInt_Init World (BumpInt_Init World s)) =
    nvic_ip9 World (BumpInt_Init World s) /\
  nvic_iser1 World (BumpInt_Init World (BumpInt_Init World s)) =
    nvic_iser1 World (BumpInt_Init World s) /\
  int_enabled World (BumpInt_Init World (BumpInt_Init World s)) =
    int_enabled World (BumpInt_Init World s).
Proof.
  split; [|split; [|split; reflexivity]].
  - intros p f; destruct p, f; cbn -[Z.land Z.lor Z.lnot to_u8];
      unfold get; try reflexivity; bits_solve.
  - cbn -[Z.land Z.lor]. bits_solve.
Qed.

(** After [Reflectance_Init] the LED enables P5.3 and P9.2 are GPIO
    (SEL0 = SEL1 = 0) outputs with high drive strength driven low, and all
    eight P7 pins are GPIO inputs with the pull resistor disabled. *)
Theorem reflectance_init_config (s : hw World) :
  let s' := Reflectance_Init World s in
  Z.testbit (regs World s' P5 SEL0) 3 = false /\
  Z.testbit (regs World s' P5 SEL1) 3 = false /\
  Z.testbit (regs World s' P5 DIR) 3 = true /\
  Z.testbit (regs World s' P5 DS) 3 = true /\
  Z.testbit (regs World s' P5 OUT) 3 = false /\
  Z.testbit (regs World s' P9 SEL0) 2 = false /\
  Z.testbit (regs World s' P9 SEL1) 2 = false /\
  Z.testbit (regs World s' P9 DIR) 2 = true /\
  Z.testbit (regs World s' P9 DS) 2 = true /\
  Z.testbit (regs World s' P9 OUT) 2 = false /\
  regs World s' P7 SEL0 = 0 /\ regs World s' P7 SEL1 = 0 /\
  regs World s' P7 DIR = 0 /\ regs World s' P7 REN = 0.
Proof.
  cbv zeta.
  split_conj; cbn -[Z.land Z.lor Z.lnot to_u8 Z.testbit];
    [regs_cases ..| | | |];
    apply Z.bits_inj'; intros n Hn; rewrite Z.testbit_0_l; unfold get, to_u8;
    bits_rewrite; destruct (Z.testbit 255 n); cbn [negb];
    rewrite ?andb_false_r; reflexivity.
Qed.

(** [Reflectance_Init] changes only bit 3 of P5 SEL0/SEL1/DIR/DS/OUT,
    bit 2 of the same P9 registers and the P7 SEL0/SEL1/DIR/REN registers;
    every other register bit (in particular all of Port 4), the NVIC
    registers, the interrupt enable and the world are left as they were. *)
Theorem reflectance_init_frame (s : hw World) (p : port) (f : field) (i : Z)
  (Hi : 0 <= i < 8)
  (Hnot : Z.testbit (match p, f with
                     | P5, (SEL0 | SEL1 | DIR | DS | OUT) => 8
                     | P9, (SEL0 | SEL1 | DIR | DS | OUT) => 4
                     | P7, (SEL0 | SEL1 | DIR | REN) => 255
                     | _, _ => 0
                     end) i = false) :
  Z.testbit (regs World (Reflectance_Init World s) p f) i =
    Z.testbit (regs World s p f) i /\
  nvic_ip9 World (Reflectance_Init World s) = nvic_ip9 World s /\
  nvic_iser1 World (Reflectance_Init World s) = nvic_iser1 World s /\
  int_enabled World (Reflectance_Init World s) = int_enabled World s /\
  world World (Reflectance_Init World s) = world World s.
Proof.
  split; [|split_conj; reflexivity].
  pose proof (testbit_255 i Hi) as H255.
  destruct p, f; cbn -[Z.land Z.lor Z.lnot to_u8 Z.testbit] in *;
    unfold get, to_u8; try reflexivity; try congruence; bits_rewrite;
    rewrite ?Hnot, ?H255;
    cbn [negb]; rewrite ?andb_true_r, ?orb_false_r; reflexivity.
Qed.

(** [BumpInt_Init] changes no register of Ports 5, 7 and 9 and not the
    drive strength of Port 4, and leaves the world unchanged. *)
Theorem bump_init_frame_other_ports (s : hw World) (p : port) (f : field)
  (Hpf : p <> P4 \/ f = DS) :
  regs World (BumpInt_Init World s) p f = regs World s p f /\
  world World (BumpInt_Init World s) = world World s.
Proof.
  split; [|reflexivity].
  destruct Hpf as [Hp| ->].
  - destruct p; [congruence| | |]; destruct f; reflexivity.
  - destruct p; reflexivity.
Qed.

(** The two initialisations are independent: running [Reflectance_Init]
    then [BumpInt_Init] or the other way round gives the same registers,
    NVIC state and interrupt enable. *)
Theorem inits_commute (s : hw World) :
  (forall p f,
     regs World (BumpInt_Init World (Reflectance_Init World s)) p f =
     regs World (Reflectance_Init World (BumpInt_Init World s)) p f) /\
  nvic_ip9 World (BumpInt_Init World (Reflectance_Init World s)) =
    nvic_ip9 World (Reflectance_Init World (BumpInt_Init World s)) /\
  nvic_iser1 World (BumpInt_Init World (Reflectance_Init World s)) =
    nvic_iser1 World (Reflectance_Init World (BumpInt_Init World s)) /\
  int_enabled World (BumpInt_Init World (Reflectance_Init World s)) =
    int_enabled World (Reflectance_Init World (BumpInt_Init World s)).
Proof.
  split; [|split_conj; cbn -[Z.land Z.lor Z.lnot to_u8]; reflexivity].
  intros p f; destruct p, f; cbn -[Z.land Z.lor Z.lnot to_u8]; reflexivity.
Qed.

(** After [BumpInt_Init] each bump pin (P4.0, P4.2, P4.3, P4.5, P4.6, P4.7)
    is a GPIO input (SEL0 = SEL1 = DIR = 0) with its resistor enabled as a
    pull-up (REN = OUT = 1), interrupts on the falling edge (IES = 1) armed
    (IE = 1) with the flag cleared (IFG = 0); interrupt 38 is enabled in
    [ISER[1]], the priority field of [IP[9]] bits 23..20 holds 2, and
    interrupts are globally enabled. *)
Theorem bump_init_config (s : hw World) (i : Z)
  (Hi : In i [0; 2; 3; 5; 6; 7]) :
  let s' := BumpInt_Init World s in
  Z.testbit (regs World s' P4 SEL0) i = false /\
  Z.testbit (regs World s' P4 SEL1) i = false /\
  Z.testbit (regs World s' P4 DIR) i = false /\
  Z.testbit (regs World s' P4 REN) i = true /\
  Z.testbit (regs World s' P4 OUT) i = true /\
  Z.testbit (regs World s' P4 IES) i = true /\
  Z.testbit (regs World s' P4 IFG) i = false /\
  Z.testbit (regs World s' P4 IE) i = true /\
  nvic_iser1 World s' = 64 /\
  Z.land (nvic_ip9 World s') 15728640 = 2097152 /\
  int_enabled World s' = true.
Proof.
  cbv zeta. cbn in Hi.
  assert (Hip : forall x, Z.land (Z.lor (Z.land x 4279238655) 2097152) 15728640
                          = 2097152).
  { intros x. rewrite Z.land_lor_distr_l, <- Z.land_assoc.
    change (Z.land 4279238655 15728640) with 0.
    rewrite Z.land_0_r. reflexivity. }
  destruct Hi as [<-|[<-|[<-|[<-|[<-|[<-|[]]]]]]];
    (split_conj; [cbn -[Z.land Z.lor Z.lnot to_u8 Z.testbit]; regs_cases ..
                   | apply Hip | reflexivity]).
Qed.

(** Every sampling call turns the IR LEDs off: after [Reflectance_Read],
    [Reflectance_Center] and [Reflectance_End], bit 3 of P5.OUT and bit 2
    of P9.OUT are 0, whatever the delays did to the state. *)
Theorem sampling_turns_leds_off (t : Z) (s : hw World) :
  let r := snd (Reflectance_Read World P7_IN Clock_Delay1us t s) in
  let c := snd (Reflectance_Center World P7_IN Clock_Delay1us t s) in
  let e := snd (Reflectance_End World P7_IN s) in
  Z.testbit (regs World r P5 OUT) 3 = false /\
  Z.testbit (regs World r P9 OUT) 2 = false /\
  Z.testbit (regs World c P5 OUT) 3 = false /\
  Z.testbit (regs World c P9 OUT) 2 = false /\
  Z.testbit (regs World e P5 OUT) 3 = false /\
  Z.testbit (regs World e P9 OUT) 2 = false.
Proof.
  cbv zeta. split_conj; cbn -[Z.land Z.lor Z.lnot to_u8 Z.testbit]; regs_cases.
Qed.

(** The values returned by [Reflectance_Read] and [Reflectance_End] are
    8-bit snapshots, and [Reflectance_Center] returns a code in 0..3. *)
Theorem sampling_result_ranges (t : Z) (s : hw World) :
  0 <= fst (Reflectance_Read World P7_IN Clock_Delay1us t s) < 256 /\
  0 <= fst (Reflectance_Center World P7_IN Clock_Delay1us t s) <= 3 /\
  0 <= fst (Reflectance_End World P7_IN s) < 256.
Proof.
  assert (Hu8 : forall v, 0 <= to_u8 v < 256).
  { intros v. unfold to_u8. change 255 with (Z.ones 8).
    rewrite Z.land_ones by lia. apply Z.mod_pos_bound. lia. }
  split; [apply Hu8|split; [|apply Hu8]].
  cbn [Reflectance_Center fst]. rewrite center_u8, center_bits.
  destruct (Z.testbit _ 4), (Z.testbit _ 3); cbn; lia.
Qed.

(** If the busy-wait leaves the registers alone, [Reflectance_Read] ends
    with the P7 pins as inputs ([DIR = 0x00]) and [OUT = 0xFF], the LED bits
    P5.3 and P9.2 cleared ([OUT &= ~mask], other bits kept) and every other
    register as it was. *)
Theorem read_final_registers (t : Z) (s : hw World)
  (Hdelay : forall n x, regs World (Clock_Delay1us n x) = regs World x) :
  let s' := snd (Reflectance_Read World P7_IN Clock_Delay1us t s) in
  regs World s' P7 DIR = 0 /\ regs World s' P7 OUT = 255 /\
  regs World s' P5 OUT = to_u8 (Z.land (regs World s P5 OUT) (Z.lnot 8)) /\
  regs World s' P9 OUT = to_u8 (Z.land (regs World s P9 OUT) (Z.lnot 4)) /\
  (forall p f, ~ In (p, f) [(P7, DIR); (P7, OUT); (P5, OUT); (P9, OUT)] ->
     regs World s' p f = regs World s p f).
Proof.
  cbv zeta. unfold Reflectance_Read; cbn [snd].
  split_conj; [regs_simp Hdelay; reflexivity ..| | |].
  - regs_simp Hdelay; bits_solve.
  - regs_simp Hdelay; bits_solve.
  - intros p f Hpf; destruct p, f; regs_simp Hdelay;
      try reflexivity; exfalso; apply Hpf; cbn; tauto.
Qed.

(** If the busy-wait leaves the registers alone, [Reflectance_Start] ends
    in the decay phase: LEDs P5.3 and P9.2 switched on ([OUT |= mask]),
    P7 pins released as inputs ([DIR = 0x00]) with [OUT = 0xFF], every other
    register as it was. *)
Theorem start_final_registers (s : hw World)
  (Hdelay : forall n x, regs World (Clock_Delay1us n x) = regs World x) :
  let s' := Reflectance_Start World Clock_Delay1us s in
  regs World s' P7 DIR = 0 /\ regs World s' P7 OUT = 255 /\
  regs World s' P5 OUT = to_u8 (Z.lor (regs World s P5 OUT) 8) /\
  regs World s' P9 OUT = to_u8 (Z.lor (regs World s P9 OUT) 4) /\
  (forall p f, ~ In (p, f) [(P7, DIR); (P7, OUT); (P5, OUT); (P9, OUT)] ->
     regs World s' p f = regs World s p f).
Proof.
  cbv zeta. unfold Reflectance_Start.
  split_conj; [regs_simp Hdelay; reflexivity ..|].
  intros p f Hpf; destruct p, f; regs_simp Hdelay;
    try reflexivity; exfalso; apply Hpf; cbn; tauto.
Qed.

End DriverFacts.

(** A snapshot whose set bits all lie among the four right sensors
    (bits 0..3, P7.0-P7.3) yields a strictly negative position. *)
Theorem position_right_half_negative (d : Z) (Hd : 0 < d < 16) :
  exists x, Position.Reflectance_Position d = Some x /\ x < 0.
Proof.
  assert (Hhi : forall k, 4 <= k -> Z.testbit d k = false).
  { intros k Hk. apply Z.bits_above_log2; [lia|].
    apply Z.lt_le_trans with 4; [|lia]. apply Z.log2_lt_pow2; cbn; lia. }
  rewrite position_bits; cbv beta zeta.
  rewrite (Hhi 4), (Hhi 5), (Hhi 6), (Hhi 7) by lia.
  destruct (Z.testbit d 0) eqn:?, (Z.testbit d 1) eqn:?,
           (Z.testbit d 2) eqn:?, (Z.testbit d 3) eqn:?;
    try (exfalso; apply (byte_nonzero_bit d); first [assumption | apply Hhi; lia | lia]);
    eval_position; (eexists; split; [reflexivity|lia]).
Qed.

(** A non-empty snapshot whose set bits all lie among the four left
    sensors (bits 4..7, P7.4-P7.7) yields a strictly positive position. *)
Theorem position_left_half_positive (d : Z) (Hd : 0 <= d < 256)
  (Hlow : Z.land d 15 = 0) (Hnz : d <> 0) :
  exists x, Position.Reflectance_Position d = Some x /\ 0 < x.
Proof.
  assert (Hlo : forall k, 0 <= k < 4 -> Z.testbit d k = false).
  { intros k Hk.
    assert (H := f_equal (fun x => Z.testbit x k) Hlow); cbn beta in H.
    rewrite Z.land_spec, Z.testbit_0_l in H.
    assert (H15 : Z.testbit 15 k = true).
    { assert (k = 0 \/ k = 1 \/ k = 2 \/ k = 3) as [->|[->|[->| ->]]] by lia;
        reflexivity. }
    rewrite H15, andb_true_r in H. exact H. }
  rewrite position_bits; cbv beta zeta.
  rewrite (Hlo 0), (Hlo 1), (Hlo 2), (Hlo 3) by lia.
  destruct (Z.testbit d 4) eqn:?, (Z.testbit d 5) eqn:?,
           (Z.testbit d 6) eqn:?, (Z.testbit d 7) eqn:?;
    try (exfalso; apply (byte_nonzero_bit d); first [assumption | apply Hlo; lia | lia]);
    eval_position; (eexists; split; [reflexivity|lia]).
Qed.

(** Two adjacent sensors [i] and [i+1] seeing the line give exactly the
    midpoint of their two weights. *)
Theorem position_adjacent_pair (i : nat) (Hi : (i < 7)%nat) :
  exists x,
    Position.Reflectance_Position (Z.shiftl 3 (Z.of_nat i)) = Some x /\
    2 * x = nth i Position.w 0 + nth (S i) Position.w 0.
Proof.
  do 7 (destruct i as [|i];
        [rewrite position_bits; cbv beta zeta; eval_position;
         eexists; split; [reflexivity|cbn; lia]|]).
  lia.
Qed.

(** ** Witnesses for the further properties *)

Lemma reflectance_init_frame_witness :
  0 <= 1 < 8 /\ Z.testbit 0 1 = false /\
  Z.testbit (regs unit (Reflectance_Init unit hw0) P4 SEL0) 1 =
    Z.testbit (regs unit hw0 P4 SEL0) 1 /\
  nvic_ip9 unit (Reflectance_Init unit hw0) = nvic_ip9 unit hw0 /\
  nvic_iser1 unit (Reflectance_Init unit hw0) = nvic_iser1 unit hw0 /\
  int_enabled unit (Reflectance_Init unit hw0) = int_enabled unit hw0 /\
  world unit (Reflectance_Init unit hw0) = world unit hw0.
Proof.
  split; [lia|split; [reflexivity|]].
  apply (reflectance_init_frame unit hw0 P4 SEL0 1); [lia|reflexivity].
Defined.

Lemma bump_init_frame_other_ports_witness :
  (P7 <> P4 \/ DIR = DS) /\
  regs unit (BumpInt_Init unit hw0) P7 DIR = regs unit hw0 P7 DIR /\
  world unit (BumpInt_Init unit hw0) = world unit hw0.
Proof.
  split; [left; discriminate|].
  apply (bump_init_frame_other_ports unit hw0 P7 DIR). left; discriminate.
Defined.

Lemma bump_init_config_witness :
  In 5 [0; 2; 3; 5; 6; 7] /\
  let s' := BumpInt_Init unit hw0 in
  Z.testbit (regs unit s' P4 SEL0) 5 = false /\
  Z.testbit (regs unit s' P4 SEL1) 5 = false /\
  Z.testbit (regs unit s' P4 DIR) 5 = false /\
  Z.testbit (regs unit s' P4 REN) 5 = true /\
  Z.testbit (regs unit s' P4 OUT) 5 = true /\
  Z.testbit (regs unit s' P4 IES) 5 = true /\
  Z.testbit (regs unit s' P4 IFG) 5 = false /\
  Z.testbit (regs unit s' P4 IE) 5 = true /\
  nvic_iser1 unit s' = 64 /\
  Z.land (nvic_ip9 unit s') 15728640 = 2097152 /\
  int_enabled unit s' = true.
Proof.
  split; [cbn; tauto|].
  apply (bump_init_config unit hw0 5). cbn; tauto.
Defined.

Lemma read_final_registers_witness :
  (forall n (x : hw unit), regs unit ((fun (_ : Z) (y : hw unit) => y) n x) = regs unit x) /\
  let s' := snd (Reflectance_Read unit (fun _ => 165) (fun (_ : Z) (y : hw unit) => y) 20 hw0) in
  regs unit s' P7 DIR = 0 /\ regs unit s' P7 OUT = 255 /\
  regs unit s' P5 OUT = to_u8 (Z.land (regs unit hw0 P5 OUT) (Z.lnot 8)) /\
  regs unit s' P9 OUT = to_u8 (Z.land (regs unit hw0 P9 OUT) (Z.lnot 4)) /\
  (forall p f, ~ In (p, f) [(P7, DIR); (P7, OUT); (P5, OUT); (P9, OUT)] ->
     regs unit s' p f = regs unit hw0 p f).
Proof.
  split; [reflexivity|].
  apply (read_final_registers unit (fun _ => 165) (fun (_ : Z) (y : hw unit) => y) 20 hw0).
  reflexivity.
Defined.

Lemma start_final_registers_witness :
  (forall n (x : hw unit), regs unit ((fun (_ : Z) (y : hw unit) => y) n x) = regs unit x) /\
  let s' := Reflectance_Start unit (fun (_ : Z) (y : hw unit) => y) hw0 in
  regs unit s' P7 DIR = 0 /\ regs unit s' P7 OUT = 255 /\
  regs unit s' P5 OUT = to_u8 (Z.lor (regs unit hw0 P5 OUT) 8) /\
  regs unit s' P9 OUT = to_u8 (Z.lor (regs unit hw0 P9 OUT) 4) /\
  (forall p f, ~ In (p, f) [(P7, DIR); (P7, OUT); (P5, OUT); (P9, OUT)] ->
     regs unit s' p f = regs unit hw0 p f).
Proof.
  split; [reflexivity|].
  apply (start_final_registers unit (fun _ => 0) (fun (_ : Z) (y : hw unit) => y) hw0).
  reflexivity.
Defined.

Lemma position_right_half_negative_witness :
  0 < 6 < 16 /\ exists x, Position.Reflectance_Position 6 = Some x /\ x < 0.
Proof. split; [lia|]. apply (position_right_half_negative 6). lia. Defined.

Lemma position_left_half_positive_witness :
  0 <= 48 < 256 /\ Z.land 48 15 = 0 /\ 48 <> 0 /\
  exists x, Position.Reflectance_Position 48 = Some x /\ 0 < x.
Proof.
  split; [lia|split; [reflexivity|split; [lia|]]].
  apply (position_left_half_positive 48); [lia|reflexivity|lia].
Defined.

Lemma position_adjacent_pair_witness :
  (3 < 7)%nat /\
  exists x,
    Position.Reflectance_Position (Z.shiftl 3 (Z.of_nat 3)) = Some x /\
    2 * x = nth 3 Position.w 0 + nth 4 Position.w 0.
Proof. split; [lia|]. apply (position_adjacent_pair 3). lia. Defined.
